(** * ATS Resume Score Checker: a shallow embedding of [ATSscorechecker.py]

    The script is a single Streamlit page.  Each run reads the widgets,
    possibly extracts the text of an uploaded resume, cuts both texts to
    [MAX_CHARS] characters and, when the button was pressed, computes a
    similarity score and prints a tiered feedback message.

    Modelling choices.
    - A Python [str] is a list of Unicode code points ([N]); [strip] and
      slicing are the list operations Python performs on code points.
    - The third-party libraries (PyMuPDF, python-docx, sentence-transformers)
      are not part of the script: they are the fields of the class
      [Externals].  A call that may raise returns a sum, [inl e] being the
      exception.  The model handle is taken as already loaded.
    - Streamlit calls are logged as [event]s; [st.stop()] ends the run.  Every
      call of [model.encode] is logged as well, so that a trace tells whether
      the scoring pipeline was entered.
    - Python floats are modelled by exact rationals ([Q]): the product by 100
      is exact and [round(x, 2)] is rounding half to even of the exact value
      to a multiple of 1/100.  Binary rounding error is not modelled, and a
      similarity that is not a number, or infinite, is not represented. *)

From Stdlib Require Import String.
From Stdlib Require Import List NArith ZArith QArith Qround Qabs Bool Lia Lqa.
From Stdlib Require Import Strings.Byte.
Import ListNotations.

Set Implicit Arguments.

(** ** Python strings *)

Definition char := N.
Definition str := list char.

(** [str.isspace] on one code point, as CPython's [_PyUnicode_IsWhitespace]. *)
Definition isspace (c : char) : bool :=
  ((9 <=? c) && (c <=? 13) ||
   (28 <=? c) && (c <=? 32) ||
   (c =? 133) || (c =? 160) || (c =? 5760) ||
   (8192 <=? c) && (c <=? 8202) ||
   (c =? 8232) || (c =? 8233) || (c =? 8239) || (c =? 8287) ||
   (c =? 12288))%N.

Fixpoint lstrip (s : str) : str :=
  match s with
  | [] => []
  | c :: s' => if isspace c then lstrip s' else s
  end.

Definition rstrip (s : str) : str := rev (lstrip (rev s)).

(** [s.strip()] *)
Definition strip (s : str) : str := rstrip (lstrip s).

(** Every character of [s] is whitespace (an auxiliary notion for the proofs). *)
Definition blank (s : str) : bool := forallb isspace s.

(** Truth value of a string in a condition: [if s:] holds for a non-empty [s]. *)
Definition truthy (s : str) : bool :=
  match s with [] => false | _ :: _ => true end.

(** [s[:n]] *)
Definition slice_to (n : nat) (s : str) : str := firstn n s.

(** [s.lower()] restricted to the letters A-Z; no other code point lowers to
    one of the characters of ".pdf" or ".docx". *)
Definition lower_char (c : char) : char :=
  if ((65 <=? c) && (c <=? 90))%N then (c + 32)%N else c.

Definition lower (s : str) : str := map lower_char s.

Fixpoint str_eqb (a b : str) : bool :=
  match a, b with
  | [], [] => true
  | x :: a', y :: b' => (x =? y)%N && str_eqb a' b'
  | _, _ => false
  end.

(** [s.endswith(suffix)] *)
Definition endswith (s suffix : str) : bool :=
  (length suffix <=? length s)%nat &&
  str_eqb (skipn (length s - length suffix) s) suffix.

Definition newline : str := [10%N].
Definition dot_pdf : str := [46; 112; 100; 102]%N.
Definition dot_docx : str := [46; 100; 111; 99; 120]%N.

(** ** The libraries the script calls *)

Definition exn := string.

Class Externals := {
  (** the tensor type of the embedding model *)
  tensor : Type;
  (** [model.encode(text, convert_to_tensor=True)] *)
  model_encode : str -> exn + tensor;
  (** [util.pytorch_cos_sim(a, b).item()] *)
  pytorch_cos_sim : tensor -> tensor -> exn + Q;
  (** [fitz.open(stream=..., filetype="pdf")] followed by [page.get_text()]
      on every page, in page order *)
  fitz_pages : list byte -> exn + list str;
  (** [docx.Document(...)] followed by [para.text] on every paragraph of
      [doc.paragraphs], in order *)
  docx_paragraphs : list byte -> exn + list str
}.

(** ** Streamlit calls and the trace of a run *)

Inductive message : Type :=
| ErrorReadingPdf (e : exn)        (* "Error reading PDF: {e}" *)
| NoTextInPdf                      (* "Could not extract text from the uploaded PDF. ..." *)
| ErrorReadingDocx (e : exn)       (* "Error reading DOCX: {e}" *)
| NoTextInDocx                     (* "Could not extract text from the uploaded DOCX. ..." *)
| ErrorCalculating (e : exn)       (* "Error calculating ATS score: {e}" *)
| UnsupportedFileType              (* "Unsupported file type." *)
| ResumeExtracted                  (* "Resume text extracted successfully." *)
| GreatMatch                       (* "Great! Your resume aligns very well ..." *)
| AverageMatch                     (* "Average match. Consider improving ..." *)
| LowMatch                         (* "Low match. Consider rewriting ..." *)
| ProvideBoth.                     (* "Please provide both resume and job description ..." *)

Inductive event : Type :=
| StError (m : message)            (* st.error *)
| StSidebarError (m : message)     (* st.sidebar.error *)
| StSuccess (m : message)          (* st.success *)
| StWarning (m : message)          (* st.warning *)
| StExpanderText (t : str)         (* st.expander(...): st.text_area("", t) *)
| StSpinner                        (* st.spinner("Calculating ATS score...") *)
| StSubheader (score : Q)          (* "Your ATS Compatibility Score: {score}%" *)
| StCaption                        (* st.caption("Note: ...") *)
| StFooter                         (* the closing st.markdown *)
| ModelEncode (t : str).           (* a call of model.encode *)

(** A computation logs events and either returns a value or was ended by
    [st.stop()]. *)
Definition run (A : Type) : Type := (list event * option A)%type.

Definition ret {A} (a : A) : run A := ([], Some a).

Definition bind {A B} (m : run A) (k : A -> run B) : run B :=
  match m with
  | (l, None) => (l, None)
  | (l, Some a) => let (l', r) := k a in (l ++ l', r)
  end.

Definition emit (e : event) : run unit := ([e], Some tt).

(** [st.stop()] *)
Definition st_stop {A} : run A := ([], None).

Declare Scope run_scope.
Delimit Scope run_scope with run.
Notation "x <- m ;; k" := (bind m (fun x => k))
  (at level 61, m at next level, right associativity) : run_scope.
Notation "m ;; k" := (bind m (fun _ => k))
  (at level 61, right associativity) : run_scope.
Local Open Scope run_scope.

Definition trace {A} (m : run A) : list event := fst m.
Definition outcome {A} (m : run A) : option A := snd m.

(** ** Rounding *)

(** Rounding half to even of an exact rational to an integer. *)
Definition round_half_even (q : Q) : Z :=
  let n := Qfloor q in
  match (q - inject_Z n ?= 1 # 2)%Q with
  | Lt => n
  | Gt => (n + 1)%Z
  | Eq => if Z.even n then n else (n + 1)%Z
  end.

(** [round(x, ndigits)] for a float [x] and [ndigits >= 0]: the multiple of
    [10^-ndigits] nearest to [x], ties to even, in lowest terms. *)
Definition py_round (x : Q) (ndigits : nat) : Q :=
  let p := Nat.iter ndigits (Pos.mul 10) 1%positive in
  Qred (round_half_even (x * inject_Z (Z.pos p)) # p).

(** ** The script *)

Record upload := {
  name : str;              (* uploaded_file.name *)
  content : list byte      (* the bytes of the file *)
}.

Inductive input_method := UploadFile | PasteText.

(** What the widgets return in one run of the script. *)
Record widgets := {
  upload_option : input_method;       (* st.sidebar.radio *)
  uploaded_resume : option upload;    (* st.sidebar.file_uploader *)
  pasted_resume : str;                (* st.text_area, resume *)
  pasted_job_desc : str;              (* st.text_area, job description *)
  button : bool                       (* st.button("Check ATS Score") *)
}.

Definition MAX_CHARS : nat := 2000.

Section Script.
Context {E : Externals}.

Definition extract_text_from_pdf (uploaded_file : upload) : run str :=
  text <-
    match fitz_pages (content uploaded_file) with
    | inr pages => ret (fold_left (fun text page => text ++ page) pages [])
    | inl e => emit (StError (ErrorReadingPdf e)) ;; st_stop
    end ;;
  (if negb (truthy (strip text))
   then emit (StError NoTextInPdf) ;; st_stop
   else ret tt) ;;
  ret text.

Definition extract_text_from_docx (uploaded_file : upload) : run str :=
  text <-
    match docx_paragraphs (content uploaded_file) with
    | inr paragraphs =>
        ret (fold_left (fun text para => text ++ (para ++ newline)) paragraphs [])
    | inl e => emit (StError (ErrorReadingDocx e)) ;; st_stop
    end ;;
  (if negb (truthy (strip text))
   then emit (StError NoTextInDocx) ;; st_stop
   else ret tt) ;;
  ret text.

(** The [except Exception] branch of [calculate_ats_score]. *)
Definition score_failed (e : exn) : run Q :=
  emit (StError (ErrorCalculating e)) ;; ret 0%Q.

Definition calculate_ats_score (resume_text job_desc : str) : run Q :=
  emit (ModelEncode resume_text) ;;
  match model_encode resume_text with
  | inl e => score_failed e
  | inr resume_embedding =>
      emit (ModelEncode job_desc) ;;
      match model_encode job_desc with
      | inl e => score_failed e
      | inr job_embedding =>
          match pytorch_cos_sim resume_embedding job_embedding with
          | inl e => score_failed e
          | inr similarity_score => ret (py_round (similarity_score * 100)%Q 2)
          end
      end
  end.

(** The feedback branches that follow the score. *)
Definition feedback (score : Q) : event :=
  if Qle_bool 75 score then StSuccess GreatMatch
  else if Qle_bool 50 score then StWarning AverageMatch
  else StError LowMatch.

(** Lines 79-94: where the resume text comes from. *)
Definition resume_input (w : widgets) : run str :=
  match upload_option w with
  | UploadFile =>
      match uploaded_resume w with
      | Some f =>
          resume_text <-
            (if endswith (lower (name f)) dot_pdf then extract_text_from_pdf f
             else if endswith (lower (name f)) dot_docx then extract_text_from_docx f
             else emit (StSidebarError UnsupportedFileType) ;; ret []) ;;
          (if truthy (strip resume_text)
           then emit (StSuccess ResumeExtracted) ;; emit (StExpanderText resume_text)
           else ret tt) ;;
          ret resume_text
      | None => ret []
      end
  | PasteText => ret (pasted_resume w)
  end.

(** Lines 104-120: the handler of the button, on the texts already cut. *)
Definition check_ats_score (pressed : bool) (resume_text job_desc : str) : run unit :=
  if pressed then
    if truthy (strip resume_text) && truthy (strip job_desc) then
      emit StSpinner ;;
      score <- calculate_ats_score resume_text job_desc ;;
      emit (StSubheader score) ;;
      emit (feedback score) ;;
      emit StCaption
    else emit (StWarning ProvideBoth)
  else ret tt.

(** One run of the script, from the inputs to the footer.  The static page
    decoration before the inputs (sidebar title, page title) is not logged. *)
Definition script (w : widgets) : run unit :=
  resume_text <- resume_input w ;;
  let job_desc := pasted_job_desc w in
  let resume_text := slice_to MAX_CHARS resume_text in
  let job_desc := slice_to MAX_CHARS job_desc in
  check_ats_score (button w) resume_text job_desc ;;
  emit StFooter.

End Script.

(** Whether a trace shows that the scoring pipeline was entered. *)
Definition is_scoring_event (e : event) : bool :=
  match e with
  | ModelEncode _ | StSpinner | StSubheader _ => true
  | _ => false
  end.

Definition scoring_invoked (l : list event) : bool := existsb is_scoring_event l.

(** The score a trace displays, if any. *)
Fixpoint displayed_score (l : list event) : option Q :=
  match l with
  | [] => None
  | StSubheader s :: _ => Some s
  | _ :: l' => displayed_score l'
  end.

(** The texts given to [model.encode] in a trace, in call order. *)
Fixpoint encode_calls (l : list event) : list str :=
  match l with
  | [] => []
  | ModelEncode t :: l' => t :: encode_calls l'
  | _ :: l' => encode_calls l'
  end.

(** Lines 89-92 once an extractor has returned [text]: the success message
    and the expander showing the text. *)
Definition extracted (text : str) : run str :=
  ([StSuccess ResumeExtracted; StExpanderText text], Some text).

(** ** A small instance of the libraries, to run the script on concrete inputs

    Embeddings are one-dimensional; the cosine of two of them is the product
    of their signs.  A text starting with NUL cannot be encoded.  A document
    is a list of bytes, each page or paragraph holding one of them; the empty
    byte stream is not a document. *)

Definition toy_encode (t : str) : exn + Z :=
  match t with
  | [] => inr 0%Z
  | c :: _ =>
      if (c =? 0)%N then inl "cannot encode NUL"%string
      else inr (if N.even c then 1%Z else (-1)%Z)
  end.

Definition toy_cos_sim (a b : Z) : exn + Q :=
  inr (inject_Z (Z.sgn a * Z.sgn b)).

Definition toy_parts (bytes : list byte) : exn + list str :=
  match bytes with
  | [] => inl "empty stream"%string
  | _ => inr (map (fun b => [Byte.to_N b]) bytes)
  end.

Definition toy : Externals := {|
  tensor := Z;
  model_encode := toy_encode;
  pytorch_cos_sim := toy_cos_sim;
  fitz_pages := toy_parts;
  docx_paragraphs := toy_parts
|}.

Definition spaces (n : nat) : str := repeat 32%N n.

Definition cv_pdf : str := [99; 118; 46; 80; 68; 70]%N.       (* "cv.PDF" *)
Definition cv_docx : str := [99; 118; 46; 100; 111; 99; 120]%N. (* "cv.docx" *)

Definition paste (resume job : str) (pressed : bool) : widgets :=
  {| upload_option := PasteText; uploaded_resume := None;
     pasted_resume := resume; pasted_job_desc := job; button := pressed |}.

Definition upload_file (f : upload) (job : str) (pressed : bool) : widgets :=
  {| upload_option := UploadFile; uploaded_resume := Some f;
     pasted_resume := []; pasted_job_desc := job; button := pressed |}.

(** A second instance, whose similarity can fail: a text is embedded as the
    list of its code points and the similarity is defined on embeddings of
    dimension one only. *)
Definition ragged_cos_sim (a b : list Z) : exn + Q :=
  match a, b with
  | [x], [y] => inr (inject_Z (Z.sgn x * Z.sgn y))
  | _, _ => inl "shape mismatch"%string
  end.

Definition toy_ragged : Externals := {|
  tensor := list Z;
  model_encode := fun t => inr (map Z.of_N t);
  pytorch_cos_sim := ragged_cos_sim;
  fitz_pages := toy_parts;
  docx_paragraphs := toy_parts
|}.

Definition blank_then_a : list byte := repeat " "%byte 2000 ++ ["a"%byte].

(** ** Notions of the specification *)

(** The parts of a document separated by [sep], as the specification words
    the result of the extraction of a DOCX ([sep.join(parts)]). *)
Fixpoint join_with (sep : str) (parts : list str) : str :=
  match parts with
  | [] => []
  | [p] => p
  | p :: rest => p ++ sep ++ join_with sep rest
  end.

(** A parsed document contains visible text: some part has a character that
    is not whitespace. *)
Definition has_visible_text (parts : list str) : bool :=
  existsb (fun part => negb (blank part)) parts.

(** * Properties *)

(** ** Strings *)

Lemma lstrip_nil_iff (s : str) : lstrip s = [] <-> blank s = true.
Proof.
  induction s as [|c s IH]; simpl; [tauto|].
  destruct (isspace c); simpl; [exact IH|].
  split; discriminate.
Qed.

Lemma blank_app (s t : str) : blank (s ++ t) = blank s && blank t.
Proof. apply forallb_app. Qed.

Lemma blank_rev (s : str) : blank (rev s) = blank s.
Proof.
  induction s as [|c s IH]; simpl; [reflexivity|].
  rewrite blank_app, IH. simpl. rewrite andb_true_r. apply andb_comm.
Qed.

Lemma lstrip_blank (s : str) : blank (lstrip s) = blank s.
Proof.
  induction s as [|c s IH]; simpl; [reflexivity|].
  destruct (isspace c) eqn:Hc; simpl; [exact IH|].
  now rewrite Hc.
Qed.

Lemma strip_nil_iff (s : str) : strip s = [] <-> blank s = true.
Proof.
  unfold strip, rstrip.
  rewrite <- (lstrip_blank s), <- (blank_rev (lstrip s)), <- lstrip_nil_iff.
  split; intros H.
  - apply (f_equal (@rev char)) in H. now rewrite rev_involutive in H.
  - now rewrite H.
Qed.

(** [s.strip()] is falsy exactly when every character of [s] is whitespace. *)
Lemma truthy_strip (s : str) : truthy (strip s) = negb (blank s).
Proof.
  destruct (blank s) eqn:Hb.
  - apply strip_nil_iff in Hb. now rewrite Hb.
  - destruct (strip s) eqn:Hs; [|reflexivity].
    apply strip_nil_iff in Hs. congruence.
Qed.

Lemma blank_firstn (n : nat) (s : str) : blank s = true -> blank (firstn n s) = true.
Proof.
  revert n; induction s as [|c s IH]; intros [|n]; simpl; auto.
  intros H. apply andb_true_iff in H as [Hc Hs].
  now rewrite Hc, IH.
Qed.

Lemma blank_false_iff (s : str) :
  blank s = false <-> exists c, In c s /\ isspace c = false.
Proof.
  unfold blank. split.
  - intros H. induction s as [|c s IH]; simpl in *; [discriminate|].
    destruct (isspace c) eqn:Hc.
    + destruct (IH H) as [d [Hin Hd]]. exists d; auto.
    + exists c; auto.
  - intros [c [Hin Hc]].
    destruct (forallb isspace s) eqn:Hall; [|reflexivity].
    rewrite forallb_forall in Hall. rewrite (Hall c Hin) in Hc. discriminate.
Qed.

Lemma blank_spaces (n : nat) : blank (spaces n) = true.
Proof. induction n; simpl; auto. Qed.

Lemma firstn_spaces_app (n : nat) (s : str) : firstn n (spaces n ++ s) = spaces n.
Proof.
  unfold spaces. induction n; simpl; [reflexivity | now f_equal].
Qed.

(** ** The loops of the extractors *)

Lemma fold_left_app_acc (f : str -> str) (parts : list str) (acc : str) :
  fold_left (fun text part => text ++ f part) parts acc =
  acc ++ concat (map f parts).
Proof.
  revert acc; induction parts as [|p parts IH]; intros acc; simpl.
  - now rewrite app_nil_r.
  - now rewrite IH, app_assoc.
Qed.

Lemma pdf_loop (pages : list str) :
  fold_left (fun text page => text ++ page) pages [] = concat pages.
Proof.
  rewrite (fold_left_app_acc (fun p => p)). simpl. now rewrite map_id.
Qed.

Lemma docx_loop (paragraphs : list str) :
  fold_left (fun text para => text ++ (para ++ newline)) paragraphs [] =
  concat (map (fun para => para ++ newline) paragraphs).
Proof. now rewrite (fold_left_app_acc (fun p => p ++ newline)). Qed.

Lemma blank_concat (parts : list str) :
  blank (concat parts) = forallb blank parts.
Proof.
  induction parts as [|p parts IH]; simpl; [reflexivity|].
  now rewrite blank_app, IH.
Qed.

Lemma blank_concat_lines (parts : list str) :
  blank (concat (map (fun para => para ++ newline) parts)) = forallb blank parts.
Proof.
  induction parts as [|p parts IH]; simpl; [reflexivity|].
  rewrite !blank_app, IH. simpl. now rewrite andb_true_r.
Qed.

Lemma has_visible_text_forallb (parts : list str) :
  has_visible_text parts = negb (forallb blank parts).
Proof.
  unfold has_visible_text.
  induction parts as [|p parts IH]; simpl; [reflexivity|].
  rewrite IH. now destruct (blank p).
Qed.

(** Each part followed by the separator is the separated text with one more
    separator at the end. *)
Lemma concat_lines_join (sep : str) (parts : list str) :
  parts <> [] ->
  concat (map (fun part => part ++ sep) parts) = join_with sep parts ++ sep.
Proof.
  induction parts as [|p [|q rest] IH]; intros Hne.
  - congruence.
  - simpl. now rewrite app_nil_r.
  - change (concat (map (fun part => part ++ sep) (p :: q :: rest)))
      with ((p ++ sep) ++ concat (map (fun part => part ++ sep) (q :: rest))).
    rewrite IH by discriminate.
    change (join_with sep (p :: q :: rest))
      with (p ++ sep ++ join_with sep (q :: rest)).
    now rewrite <- !app_assoc.
Qed.

(** ** The extractors *)

Section Extraction.
Context {E : Externals}.

Lemma extract_text_from_pdf_eq (f : upload) :
  extract_text_from_pdf f =
  match fitz_pages (content f) with
  | inl e => ([StError (ErrorReadingPdf e)], None)
  | inr pages =>
      if has_visible_text pages then ([], Some (concat pages))
      else ([StError NoTextInPdf], None)
  end.
Proof.
  unfold extract_text_from_pdf.
  destruct (fitz_pages (content f)) as [e|pages]; [reflexivity|].
  rewrite pdf_loop. cbn [bind ret app].
  rewrite truthy_strip, negb_involutive, blank_concat, has_visible_text_forallb.
  now destruct (forallb blank pages).
Qed.

Lemma extract_text_from_docx_eq (f : upload) :
  extract_text_from_docx f =
  match docx_paragraphs (content f) with
  | inl e => ([StError (ErrorReadingDocx e)], None)
  | inr paragraphs =>
      if has_visible_text paragraphs
      then ([], Some (concat (map (fun para => para ++ newline) paragraphs)))
      else ([StError NoTextInDocx], None)
  end.
Proof.
  unfold extract_text_from_docx.
  destruct (docx_paragraphs (content f)) as [e|paragraphs]; [reflexivity|].
  rewrite docx_loop. cbn [bind ret app].
  rewrite truthy_strip, negb_involutive, blank_concat_lines, has_visible_text_forallb.
  now destruct (forallb blank paragraphs).
Qed.

(** C6, as amended.  A document that parses and contains visible text is
    extracted without any message: a PDF gives the text of its pages
    concatenated in page order; a DOCX gives the text of its paragraphs in
    order, each followed by a newline, that is the paragraphs separated by
    newlines and one more newline at the end. *)
Theorem extraction_in_document_order (f : upload) (parts : list str) :
  has_visible_text parts = true ->
  (fitz_pages (content f) = inr parts ->
   extract_text_from_pdf f = ([], Some (concat parts))) /\
  (docx_paragraphs (content f) = inr parts ->
   extract_text_from_docx f = ([], Some (join_with newline parts ++ newline))).
Proof.
  intros Hvis. split; intros Hparse.
  - now rewrite extract_text_from_pdf_eq, Hparse, Hvis.
  - rewrite extract_text_from_docx_eq, Hparse, Hvis.
    rewrite concat_lines_join; [reflexivity|].
    intros ->. discriminate.
Qed.

(** C10.  A string returned by either extractor has a character that is not
    whitespace, so that stripping it leaves a non-empty string. *)
Theorem extracted_text_not_blank (f : upload) (text : str) :
  outcome (extract_text_from_pdf f) = Some text \/
  outcome (extract_text_from_docx f) = Some text ->
  strip text <> [] /\ exists c, In c text /\ isspace c = false.
Proof.
  assert (Hgen : blank text = false ->
                 strip text <> [] /\ exists c, In c text /\ isspace c = false).
  { intros Hb. split.
    - intros Hs. apply strip_nil_iff in Hs. congruence.
    - now apply blank_false_iff. }
  intros [H|H]; apply Hgen.
  - rewrite extract_text_from_pdf_eq in H.
    destruct (fitz_pages (content f)) as [e|pages]; [discriminate|].
    destruct (has_visible_text pages) eqn:Hvis; [|discriminate].
    injection H as <-.
    rewrite blank_concat. rewrite has_visible_text_forallb in Hvis.
    now destruct (forallb blank pages).
  - rewrite extract_text_from_docx_eq in H.
    destruct (docx_paragraphs (content f)) as [e|paras]; [discriminate|].
    destruct (has_visible_text paras) eqn:Hvis; [|discriminate].
    injection H as <-.
    rewrite blank_concat_lines. rewrite has_visible_text_forallb in Hvis.
    now destruct (forallb blank paras).
Qed.

End Extraction.

(** ** The dispatch on the file name *)

Lemma str_eqb_eq (a b : str) : str_eqb a b = true -> a = b.
Proof.
  revert b; induction a as [|x a IH]; intros [|y b]; simpl; try discriminate; auto.
  intros H. apply andb_true_iff in H as [Hxy Hab].
  apply N.eqb_eq in Hxy. f_equal; auto.
Qed.

Lemma last_app_r (a b : str) (d : char) : b <> [] -> last (a ++ b) d = last b d.
Proof.
  intros Hb. induction a as [|x a IH]; simpl; [reflexivity|].
  destruct (a ++ b) eqn:Hab; [|exact IH].
  apply app_eq_nil in Hab as [_ ?]. contradiction.
Qed.

Lemma endswith_last (s suffix : str) :
  endswith s suffix = true -> suffix <> [] -> last s 0%N = last suffix 0%N.
Proof.
  unfold endswith. intros H Hne.
  apply andb_true_iff in H as [_ H]. apply str_eqb_eq in H.
  rewrite <- (firstn_skipn (length s - length suffix) s) at 1.
  rewrite H. now apply last_app_r.
Qed.

(** A name that ends with ".docx" does not end with ".pdf": the second test
    of the dispatch is reached. *)
Lemma docx_is_not_pdf (s : str) :
  endswith s dot_docx = true -> endswith s dot_pdf = false.
Proof.
  intros Hd. destruct (endswith s dot_pdf) eqn:Hp; [|reflexivity].
  apply endswith_last in Hd; [|discriminate].
  apply endswith_last in Hp; [|discriminate].
  rewrite Hd in Hp. discriminate.
Qed.

(** ** Rounding *)

Lemma floor_bracket (q : Q) :
  inject_Z (Qfloor q) <= q /\ q < inject_Z (Qfloor q) + 1.
Proof.
  split; [apply Qfloor_le|].
  generalize (Qlt_floor q). rewrite inject_Z_plus. trivial.
Qed.

(** Rounding to an integer never leaves an interval with integer ends. *)
Lemma round_half_even_bounds (q : Q) (lo hi : Z) :
  inject_Z lo <= q <= inject_Z hi ->
  (lo <= round_half_even q <= hi)%Z.
Proof.
  intros [Hlo Hhi]. unfold round_half_even.
  destruct (floor_bracket q) as [Hfl Hfu].
  set (n := Qfloor q) in *.
  assert (Hn : (lo <= n <= hi)%Z).
  { split.
    - rewrite <- (Qfloor_Z lo). now apply Qfloor_resp_le.
    - rewrite <- (Qfloor_Z hi). now apply Qfloor_resp_le. }
  assert (Hup : inject_Z n < q -> (n + 1 <= hi)%Z).
  { intros Hlt. destruct (Z_le_gt_dec (n + 1) hi) as [|Hgt]; [assumption|].
    assert (Hle : (hi <= n)%Z) by lia.
    rewrite Zle_Qle in Hle. lra. }
  destruct (Qcompare_spec (q - inject_Z n) (1 # 2)) as [Heq|Hlt|Hgt].
  - destruct (Z.even n); [lia|].
    assert (n + 1 <= hi)%Z by (apply Hup; lra). lia.
  - lia.
  - assert (n + 1 <= hi)%Z by (apply Hup; lra). lia.
Qed.

(** An even integer is the rounding of everything within one half of it,
    both ends included. *)
Lemma round_half_even_near (q : Q) (k : Z) :
  Z.even k = true ->
  inject_Z k - (1 # 2) <= q <= inject_Z k + (1 # 2) ->
  round_half_even q = k.
Proof.
  intros Hev [Hlo Hhi]. unfold round_half_even.
  destruct (floor_bracket q) as [Hfl Hfu].
  set (n := Qfloor q) in *.
  assert (Hnk : (n <= k)%Z).
  { destruct (Z_le_gt_dec n k) as [|Hgt]; [assumption|].
    assert (Hle : (k + 1 <= n)%Z) by lia.
    rewrite Zle_Qle, inject_Z_plus in Hle. change (inject_Z 1) with 1 in Hle. lra. }
  assert (Hkn : (k <= n + 1)%Z).
  { destruct (Z_le_gt_dec k (n + 1)) as [|Hgt]; [assumption|].
    assert (Hle : (n + 2 <= k)%Z) by lia.
    rewrite Zle_Qle, inject_Z_plus in Hle. change (inject_Z 2) with 2 in Hle. lra. }
  assert (Hcase : n = k \/ n = (k - 1)%Z) by lia.
  destruct Hcase as [Hn|Hn].
  - rewrite Hn in *.
    destruct (Qcompare_spec (q - inject_Z k) (1 # 2)) as [Heq|Hlt|Hgt].
    + now rewrite Hev.
    + reflexivity.
    + lra.
  - assert (Hinj : inject_Z n == inject_Z k - 1).
    { rewrite Hn. unfold Z.sub. rewrite inject_Z_plus. reflexivity. }
    assert (Hodd : Z.even n = false).
    { rewrite Hn, Z.even_sub, Hev. reflexivity. }
    destruct (Qcompare_spec (q - inject_Z n) (1 # 2)) as [Heq|Hlt|Hgt].
    + rewrite Hodd. lia.
    + lra.
    + lia.
Qed.

Lemma py_round_2_eq (x : Q) :
  py_round x 2 == round_half_even (x * 100) # 100.
Proof. unfold py_round. apply Qred_correct. Qed.

(** [round(x, 2)] stays between integer bounds of [x]. *)
Lemma py_round_2_bounds (x : Q) (lo hi : Z) :
  inject_Z lo <= x <= inject_Z hi ->
  inject_Z lo <= py_round x 2 <= inject_Z hi.
Proof.
  intros [Hlo Hhi].
  assert (Hr : (lo * 100 <= round_half_even (x * 100) <= hi * 100)%Z).
  { apply round_half_even_bounds.
    rewrite !inject_Z_mult. change (inject_Z 100) with 100. lra. }
  rewrite py_round_2_eq.
  unfold Qle, inject_Z. simpl. lia.
Qed.

(** [round(x, 2)] is exactly 100 within 0.005 of 100. *)
Lemma py_round_2_near_100 (x : Q) :
  Qabs (x - 100) <= 1 # 200 -> py_round x 2 = 100.
Proof.
  intros Habs. apply Qabs_Qle_condition in Habs as [Hlo Hhi].
  change (py_round x 2) with (Qred (round_half_even (x * 100) # 100)).
  rewrite (round_half_even_near (q := x * 100) (k := 10000)).
  - reflexivity.
  - reflexivity.
  - change (inject_Z 10000) with 10000. lra.
Qed.

(** The rounding of [q] is its floor or the next integer, at distance at most
    one half. *)
Lemma round_half_even_error (q : Q) :
  Qabs (inject_Z (round_half_even q) - q) <= 1 # 2.
Proof.
  unfold round_half_even.
  destruct (floor_bracket q) as [Hfl Hfu].
  set (n := Qfloor q) in *.
  apply Qabs_Qle_condition.
  destruct (Qcompare_spec (q - inject_Z n) (1 # 2)) as [Heq|Hlt|Hgt].
  - destruct (Z.even n).
    + split; lra.
    + rewrite inject_Z_plus. change (inject_Z 1) with 1. split; lra.
  - split; lra.
  - rewrite inject_Z_plus. change (inject_Z 1) with 1. split; lra.
Qed.

Lemma round_half_even_floor (q : Q) :
  (Qfloor q <= round_half_even q <= Qfloor q + 1)%Z.
Proof.
  unfold round_half_even.
  destruct (q - inject_Z (Qfloor q) ?= 1 # 2); [destruct (Z.even (Qfloor q))| |]; lia.
Qed.

(** Rounding half to even is monotone. *)
Lemma round_half_even_mono (p q : Q) :
  p <= q -> (round_half_even p <= round_half_even q)%Z.
Proof.
  intros Hpq.
  pose proof (Qfloor_resp_le _ _ Hpq) as Hfl.
  pose proof (round_half_even_floor p) as Hp.
  pose proof (round_half_even_floor q) as Hq.
  destruct (Z.eq_dec (Qfloor p) (Qfloor q)) as [Heq|Hne]; [|lia].
  unfold round_half_even in *. rewrite Heq in *.
  set (n := Qfloor q) in *.
  destruct (Qcompare_spec (p - inject_Z n) (1 # 2)) as [Hp1|Hp1|Hp1];
    destruct (Qcompare_spec (q - inject_Z n) (1 # 2)) as [Hq1|Hq1|Hq1];
    try lia; try lra; destruct (Z.even n); lia.
Qed.

(** An even integer [k] is reached exactly from [k - 1/2] on. *)
Lemma round_half_even_reaches (q : Q) (k : Z) :
  Z.even k = true ->
  (k <= round_half_even q)%Z <-> inject_Z k - (1 # 2) <= q.
Proof.
  intros Hev. split.
  - intros Hk.
    pose proof (round_half_even_error q) as Herr.
    apply Qabs_Qle_condition in Herr as [_ Hhi].
    rewrite Zle_Qle in Hk. lra.
  - intros Hq.
    rewrite <- (round_half_even_near (q := inject_Z k - (1 # 2)) (k := k)) at 1.
    + now apply round_half_even_mono.
    + exact Hev.
    + split; lra.
Qed.

Lemma py_round_2_mono (x y : Q) : x <= y -> py_round x 2 <= py_round y 2.
Proof.
  intros Hxy. rewrite !py_round_2_eq.
  assert (H : (round_half_even (x * 100) <= round_half_even (y * 100))%Z)
    by (apply round_half_even_mono; lra).
  unfold Qle. simpl. lia.
Qed.

(** An even integer [k] is not passed before [k + 1/2]. *)
Lemma round_half_even_upto (q : Q) (k : Z) :
  Z.even k = true ->
  q <= inject_Z k + (1 # 2) ->
  (round_half_even q <= k)%Z.
Proof.
  intros Hev Hq.
  rewrite <- (round_half_even_near (q := inject_Z k + (1 # 2)) (k := k)).
  - now apply round_half_even_mono.
  - exact Hev.
  - split; lra.
Qed.

(** [round(x, 2)] stays within [-100, 100] up to half a hundredth beyond. *)
Lemma py_round_2_within_100 (x : Q) :
  -100 - (1 # 200) <= x <= 100 + (1 # 200) ->
  -100 <= py_round x 2 <= 100.
Proof.
  intros [Hlo Hhi].
  assert (Hup : (round_half_even (x * 100) <= 10000)%Z).
  { apply round_half_even_upto; [reflexivity|].
    change (inject_Z 10000) with 10000. lra. }
  assert (Hdn : (-10000 <= round_half_even (x * 100))%Z).
  { apply (@round_half_even_reaches (x * 100) (-10000) eq_refl).
    change (inject_Z (-10000)) with (-10000). lra. }
  rewrite py_round_2_eq. unfold Qle. simpl. lia.
Qed.

(** ** The scoring pipeline *)

Section Scoring.
Context {E : Externals}.

(** [calculate_ats_score] always returns: it never stops the run. *)
Lemma calculate_ats_score_total (r j : str) :
  exists l s, calculate_ats_score r j = (l, Some s).
Proof.
  unfold calculate_ats_score, score_failed.
  destruct (model_encode r) as [e|a]; [now eexists; eexists|].
  destruct (model_encode j) as [e|b]; [now eexists; eexists|].
  destruct (pytorch_cos_sim a b) as [e|c]; now eexists; eexists.
Qed.

(** What [calculate_ats_score] returns, case by case. *)
Lemma calculate_ats_score_outcome (r j : str) :
  outcome (calculate_ats_score r j) =
  Some match model_encode r with
       | inl _ => 0
       | inr a =>
           match model_encode j with
           | inl _ => 0
           | inr b =>
               match pytorch_cos_sim a b with
               | inl _ => 0
               | inr c => py_round (c * 100) 2
               end
           end
       end.
Proof.
  unfold calculate_ats_score, score_failed.
  destruct (model_encode r) as [e|a]; [reflexivity|].
  destruct (model_encode j) as [e|b]; [reflexivity|].
  destruct (pytorch_cos_sim a b) as [e|c]; reflexivity.
Qed.

(** C1, as amended.  For a cosine similarity in [-1, 1], or beyond by no
    more than 0.000001 (the self-similarity computed in floats can exceed 1
    by that little), the score is in [-100, 100], whatever the texts; it is
    in [0, 100] when the similarity of the two embeddings is not negative;
    and it is exactly 0 when encoding the resume, encoding the job
    description or computing the similarity fails. *)
Theorem score_between_minus_100_and_100 (r j : str) :
  (forall a b c, model_encode r = inr a -> model_encode j = inr b ->
                 pytorch_cos_sim a b = inr c ->
                 -1 - (1 # 1000000) <= c <= 1 + (1 # 1000000)) ->
  exists s,
    outcome (calculate_ats_score r j) = Some s /\
    -100 <= s <= 100 /\
    ((forall a b c, model_encode r = inr a -> model_encode j = inr b ->
                    pytorch_cos_sim a b = inr c -> 0 <= c) ->
     0 <= s) /\
    (forall e, model_encode r = inl e -> s = 0) /\
    (forall a e, model_encode r = inr a -> model_encode j = inl e -> s = 0) /\
    (forall a b e, model_encode r = inr a -> model_encode j = inr b ->
                   pytorch_cos_sim a b = inl e -> s = 0).
Proof.
  intros Hcos. eexists. split; [apply calculate_ats_score_outcome|].
  destruct (model_encode r) as [e|a].
  { repeat split; intros; try lra; discriminate. }
  destruct (model_encode j) as [e|b].
  { repeat split; intros; try lra; discriminate. }
  destruct (pytorch_cos_sim a b) as [e|c] eqn:Hc.
  { repeat split; intros; try lra; discriminate. }
  destruct (Hcos a b c eq_refl eq_refl Hc) as [Hlo Hhi].
  split; [|split; [|split; [|split]]].
  - apply py_round_2_within_100. split; lra.
  - intros Hpos. specialize (Hpos a b c eq_refl eq_refl Hc).
    apply (@py_round_2_bounds (c * 100) 0 101).
    change (inject_Z 0) with 0. change (inject_Z 101) with 101. lra.
  - intros e He. discriminate.
  - intros a' e _ He. discriminate.
  - intros a' b' e Ha Hb He.
    injection Ha as <-. injection Hb as <-. congruence.
Qed.

(** C4, as amended.  A text encoded without failure, whose embedding has
    similarity 1 to itself up to 0.000001 (which covers the error of the
    float computation), scores exactly 100 against itself. *)
Theorem identical_texts_score_100 (t : str) (v : tensor) (c : Q) :
  model_encode t = inr v ->
  pytorch_cos_sim v v = inr c ->
  Qabs (c - 1) <= 1 # 1000000 ->
  calculate_ats_score t t = ([ModelEncode t; ModelEncode t], Some 100).
Proof.
  intros Henc Hcos Hc.
  unfold calculate_ats_score. rewrite Henc, Hcos. cbn [bind emit ret app].
  rewrite py_round_2_near_100; [reflexivity|].
  apply Qabs_Qle_condition in Hc as [Hlo Hhi].
  apply Qabs_Qle_condition. split; lra.
Qed.

(** The handler of the button always runs to its end. *)
Lemma check_ats_score_total (pressed : bool) (r j : str) :
  outcome (check_ats_score pressed r j) = Some tt.
Proof.
  unfold check_ats_score.
  destruct pressed; [|reflexivity].
  destruct (truthy (strip r) && truthy (strip j)); [|reflexivity].
  destruct (calculate_ats_score_total r j) as [l [s Hs]].
  rewrite Hs. reflexivity.
Qed.

(** On two texts that are not blank the handler shows the spinner, computes
    the score and shows it, followed by its feedback and the caption. *)
Lemma check_ats_score_accepted (r j : str) (l : list event) (s : Q) :
  truthy (strip r) && truthy (strip j) = true ->
  calculate_ats_score r j = (l, Some s) ->
  check_ats_score true r j =
  (StSpinner :: l ++ [StSubheader s; feedback s; StCaption], Some tt).
Proof.
  intros Hok Hs. unfold check_ats_score. rewrite Hok, Hs. reflexivity.
Qed.

(** With a blank text the handler only asks for both inputs. *)
Lemma check_ats_score_blank (r j : str) :
  blank r = true \/ blank j = true ->
  check_ats_score true r j = ([StWarning ProvideBoth], Some tt).
Proof.
  intros H. unfold check_ats_score. rewrite !truthy_strip.
  destruct H as [H|H]; rewrite H; simpl; [reflexivity|].
  now rewrite andb_false_r.
Qed.

(** C2.  The feedback is a function of the score alone, with thresholds 75
    and 50: the Strong tier ([st.success]) from 75 on, the Average tier
    ([st.warning]) from 50 to below 75, the Weak tier ([st.error]) below 50.
    It is the message the handler shows after every score. *)
Theorem feedback_thresholds (s : Q) :
  (75 <= s -> feedback s = StSuccess GreatMatch) /\
  (50 <= s -> s < 75 -> feedback s = StWarning AverageMatch) /\
  (s < 50 -> feedback s = StError LowMatch) /\
  (forall s', s == s' -> feedback s = feedback s') /\
  (forall r j, truthy (strip r) && truthy (strip j) = true ->
     exists l sc, check_ats_score true r j =
                  (l ++ [StSubheader sc; feedback sc; StCaption], Some tt)).
Proof.
  unfold feedback. repeat split.
  - intros H. apply Qle_bool_iff in H. now rewrite H.
  - intros H50 H75.
    destruct (Qle_bool 75 s) eqn:H; [apply Qle_bool_iff in H; lra|].
    apply Qle_bool_iff in H50. now rewrite H50.
  - intros H50.
    destruct (Qle_bool 75 s) eqn:H; [apply Qle_bool_iff in H; lra|].
    destruct (Qle_bool 50 s) eqn:H'; [apply Qle_bool_iff in H'; lra|].
    reflexivity.
  - intros s' Heq.
    rewrite (Qleb_comp 75 75 (Qeq_refl 75) s s' Heq).
    now rewrite (Qleb_comp 50 50 (Qeq_refl 50) s s' Heq).
  - intros r j Hok.
    destruct (calculate_ats_score_total r j) as [l [sc Hs]].
    exists (StSpinner :: l), sc.
    now rewrite (check_ats_score_accepted r j Hok Hs).
Qed.

End Scoring.

(** ** Whole runs *)

Section WholeRun.
Context {E : Externals}.

(** Getting the resume text makes no model call and shows no score. *)
Lemma resume_input_quiet (w : widgets) :
  Forall (fun e => is_scoring_event e = false) (trace (resume_input w)).
Proof.
  unfold resume_input.
  destruct (upload_option w); [|constructor].
  destruct (uploaded_resume w) as [f|]; [|constructor].
  destruct (endswith (lower (name f)) dot_pdf).
  - rewrite extract_text_from_pdf_eq.
    destruct (fitz_pages (content f)) as [e|pages]; [repeat constructor|].
    destruct (has_visible_text pages); [|repeat constructor].
    cbn [bind ret app]. destruct (truthy (strip (concat pages))); repeat constructor.
  - destruct (endswith (lower (name f)) dot_docx).
    + rewrite extract_text_from_docx_eq.
      destruct (docx_paragraphs (content f)) as [e|paras]; [repeat constructor|].
      destruct (has_visible_text paras); [|repeat constructor].
      cbn [bind ret app].
      destruct (truthy (strip (concat (map (fun para => para ++ newline) paras))));
        repeat constructor.
    + repeat constructor.
Qed.

Lemma resume_input_log_quiet (w : widgets) (l : list event) (o : option str) :
  resume_input w = (l, o) -> Forall (fun e => is_scoring_event e = false) l.
Proof.
  intros H. pose proof (resume_input_quiet w) as Hq. now rewrite H in Hq.
Qed.

Lemma quiet_scoring_invoked (l t : list event) :
  Forall (fun e => is_scoring_event e = false) l ->
  scoring_invoked (l ++ t) = scoring_invoked t.
Proof.
  unfold scoring_invoked. induction 1 as [|e l He _ IH]; simpl; [reflexivity|].
  now rewrite He.
Qed.

Lemma quiet_displayed_score (l t : list event) :
  Forall (fun e => is_scoring_event e = false) l ->
  displayed_score (l ++ t) = displayed_score t.
Proof.
  induction 1 as [|e l He _ IH]; simpl; [reflexivity|].
  destruct e; try exact IH; discriminate.
Qed.

(** Once the resume text is there, the run is the handler on the two texts
    cut to [MAX_CHARS] characters, then the footer. *)
Lemma script_after_input (w : widgets) (l : list event) (r : str) :
  resume_input w = (l, Some r) ->
  script w =
  (l ++ trace (check_ats_score (button w) (slice_to MAX_CHARS r)
                 (slice_to MAX_CHARS (pasted_job_desc w))) ++ [StFooter],
   Some tt).
Proof.
  intros Hin. unfold script. rewrite Hin. cbv zeta. unfold bind at 1.
  pose proof (check_ats_score_total (button w) (slice_to MAX_CHARS r)
                (slice_to MAX_CHARS (pasted_job_desc w))) as Htot.
  destruct (check_ats_score _ _ _) as [l' o]. simpl in Htot. subst o.
  reflexivity.
Qed.

(** C7.  When the uploaded document parses to text without any character
    that is not whitespace, the run shows the extraction error and nothing
    else, and is stopped there: no model call, no score, not even the footer. *)
Theorem empty_document_stops_the_run (w : widgets) (f : upload) (parts : list str) :
  upload_option w = UploadFile ->
  uploaded_resume w = Some f ->
  has_visible_text parts = false ->
  (endswith (lower (name f)) dot_pdf = true ->
   fitz_pages (content f) = inr parts ->
   extract_text_from_pdf f = ([StError NoTextInPdf], None) /\
   script w = ([StError NoTextInPdf], None) /\
   scoring_invoked (trace (script w)) = false) /\
  (endswith (lower (name f)) dot_docx = true ->
   docx_paragraphs (content f) = inr parts ->
   extract_text_from_docx f = ([StError NoTextInDocx], None) /\
   script w = ([StError NoTextInDocx], None) /\
   scoring_invoked (trace (script w)) = false).
Proof.
  intros Hopt Hup Hvis. split; intros Hname Hparse.
  - assert (Hx : extract_text_from_pdf f = ([StError NoTextInPdf], None))
      by now rewrite extract_text_from_pdf_eq, Hparse, Hvis.
    assert (Hs : script w = ([StError NoTextInPdf], None)).
    { unfold script, resume_input. now rewrite Hopt, Hup, Hname, Hx. }
    now rewrite Hs.
  - assert (Hx : extract_text_from_docx f = ([StError NoTextInDocx], None))
      by now rewrite extract_text_from_docx_eq, Hparse, Hvis.
    assert (Hs : script w = ([StError NoTextInDocx], None)).
    { unfold script, resume_input.
      now rewrite Hopt, Hup, (docx_is_not_pdf _ Hname), Hname, Hx. }
    now rewrite Hs.
Qed.

(** C3.  Two runs whose resume texts agree on their first 2000 characters,
    and whose job descriptions do, go on in the same way once the resume text
    is there: the same handler run on the same prefixes, hence the same
    score, and nothing is shown on account of the cut. *)
Theorem score_depends_on_first_2000_chars
    (w1 w2 : widgets) (l1 l2 : list event) (r1 r2 : str) :
  button w1 = button w2 ->
  resume_input w1 = (l1, Some r1) ->
  resume_input w2 = (l2, Some r2) ->
  firstn 2000 r1 = firstn 2000 r2 ->
  firstn 2000 (pasted_job_desc w1) = firstn 2000 (pasted_job_desc w2) ->
  let rest :=
    trace (check_ats_score (button w1) (firstn 2000 r1)
             (firstn 2000 (pasted_job_desc w1))) ++ [StFooter] in
  script w1 = (l1 ++ rest, Some tt) /\
  script w2 = (l2 ++ rest, Some tt) /\
  displayed_score (trace (script w1)) = displayed_score (trace (script w2)).
Proof.
  intros Hb H1 H2 Hr Hj rest.
  assert (S1 : script w1 = (l1 ++ rest, Some tt))
    by exact (script_after_input w1 H1).
  assert (S2 : script w2 = (l2 ++ rest, Some tt)).
  { rewrite (script_after_input w2 H2). unfold rest, slice_to, MAX_CHARS.
    now rewrite Hb, Hr, Hj. }
  repeat split; try assumption.
  rewrite S1, S2. unfold trace, fst.
  pose proof (resume_input_log_quiet w1 H1) as Q1.
  pose proof (resume_input_log_quiet w2 H2) as Q2.
  now rewrite (quiet_displayed_score rest Q1), (quiet_displayed_score rest Q2).
Qed.

(** C5.  When the model fails to encode the resume, or the job description,
    [calculate_ats_score] shows the error and returns 0; the run goes on:
    the score 0 is displayed with the feedback of the Weak tier, then the
    caption and the footer. *)
Theorem encoding_failure_scores_zero
    (w : widgets) (l : list event) (r : str) (e : exn) :
  button w = true ->
  resume_input w = (l, Some r) ->
  let r' := slice_to MAX_CHARS r in
  let j' := slice_to MAX_CHARS (pasted_job_desc w) in
  truthy (strip r') && truthy (strip j') = true ->
  (model_encode r' = inl e ->
   calculate_ats_score r' j' =
     ([ModelEncode r'; StError (ErrorCalculating e)], Some 0) /\
   script w =
     (l ++ [StSpinner; ModelEncode r'; StError (ErrorCalculating e);
            StSubheader 0; StError LowMatch; StCaption; StFooter], Some tt)) /\
  (forall v, model_encode r' = inr v -> model_encode j' = inl e ->
   calculate_ats_score r' j' =
     ([ModelEncode r'; ModelEncode j'; StError (ErrorCalculating e)], Some 0) /\
   script w =
     (l ++ [StSpinner; ModelEncode r'; ModelEncode j';
            StError (ErrorCalculating e);
            StSubheader 0; StError LowMatch; StCaption; StFooter], Some tt)).
Proof.
  intros Hb Hin r' j' Hok. split.
  - intros Hr.
    assert (Hs : calculate_ats_score r' j' =
                 ([ModelEncode r'; StError (ErrorCalculating e)], Some 0)).
    { unfold calculate_ats_score. now rewrite Hr. }
    split; [exact Hs|].
    rewrite (script_after_input w Hin), Hb. fold r' j'.
    now rewrite (check_ats_score_accepted r' j' Hok Hs).
  - intros v Hr Hj.
    assert (Hs : calculate_ats_score r' j' =
                 ([ModelEncode r'; ModelEncode j'; StError (ErrorCalculating e)],
                  Some 0)).
    { unfold calculate_ats_score. now rewrite Hr, Hj. }
    split; [exact Hs|].
    rewrite (script_after_input w Hin), Hb. fold r' j'.
    now rewrite (check_ats_score_accepted r' j' Hok Hs).
Qed.

(** C8.  When the button is pressed and the resume text or the job
    description is empty or made of whitespace only, the run makes no model
    call and shows no score: it asks for both inputs and ends normally. *)
Theorem blank_input_is_prompted (w : widgets) (l : list event) (r : str) :
  button w = true ->
  resume_input w = (l, Some r) ->
  strip r = [] \/ strip (pasted_job_desc w) = [] ->
  script w = (l ++ [StWarning ProvideBoth; StFooter], Some tt) /\
  scoring_invoked (trace (script w)) = false.
Proof.
  intros Hb Hin Hblank.
  assert (Hs : script w = (l ++ [StWarning ProvideBoth; StFooter], Some tt)).
  { rewrite (script_after_input w Hin), Hb.
    rewrite check_ats_score_blank; [reflexivity|].
    unfold slice_to.
    destruct Hblank as [H|H]; apply strip_nil_iff in H;
      [left|right]; now apply blank_firstn. }
  split; [exact Hs|].
  rewrite Hs. unfold trace, fst.
  pose proof (resume_input_log_quiet w Hin) as Hq.
  now rewrite (quiet_scoring_invoked _ Hq).
Qed.

(** C9.  The test for missing input sees the texts after the cut: a pasted
    resume (or job description) whose first 2000 characters are whitespace is
    taken as missing, whatever follows them; and such a text need not be
    blank, for instance 2000 spaces followed by a letter. *)
Theorem validation_sees_truncated_text :
  (forall resume job,
     blank (firstn 2000 resume) = true \/ blank (firstn 2000 job) = true ->
     script (paste resume job true) = ([StWarning ProvideBoth; StFooter], Some tt) /\
     scoring_invoked (trace (script (paste resume job true))) = false) /\
  (exists resume,
     blank (firstn 2000 resume) = true /\ strip resume <> [] /\
     forall job, displayed_score (trace (script (paste resume job true))) = None).
Proof.
  assert (Hgen : forall resume job,
            blank (firstn 2000 resume) = true \/ blank (firstn 2000 job) = true ->
            script (paste resume job true) =
            ([StWarning ProvideBoth; StFooter], Some tt)).
  { intros resume job H.
    rewrite (script_after_input (paste resume job true) (l := []) (r := resume) eq_refl).
    cbn [button pasted_job_desc paste].
    now rewrite (check_ats_score_blank _ _ H). }
  split.
  - intros resume job H. now rewrite (Hgen resume job H).
  - exists (spaces 2000 ++ [97%N]).
    assert (Hcut : blank (firstn 2000 (spaces 2000 ++ [97%N])) = true)
      by (rewrite firstn_spaces_app; apply blank_spaces).
    split; [exact Hcut|]. split.
    + intros Hs. apply strip_nil_iff in Hs.
      rewrite blank_app, blank_spaces in Hs. discriminate.
    + intros job. now rewrite (Hgen _ job (or_introl Hcut)).
Qed.

End WholeRun.

(** * Further properties of the script *)

(** ** Where the resume text comes from *)

Section ResumeInput.
Context {E : Externals}.

(** [resume_input], case by case. *)
Lemma resume_input_eq (w : widgets) :
  resume_input w =
  match upload_option w with
  | PasteText => ([], Some (pasted_resume w))
  | UploadFile =>
      match uploaded_resume w with
      | None => ([], Some [])
      | Some f =>
          if endswith (lower (name f)) dot_pdf then
            match fitz_pages (content f) with
            | inl e => ([StError (ErrorReadingPdf e)], None)
            | inr pages =>
                if has_visible_text pages then extracted (concat pages)
                else ([StError NoTextInPdf], None)
            end
          else if endswith (lower (name f)) dot_docx then
            match docx_paragraphs (content f) with
            | inl e => ([StError (ErrorReadingDocx e)], None)
            | inr paragraphs =>
                if has_visible_text paragraphs
                then extracted (concat (map (fun para => para ++ newline) paragraphs))
                else ([StError NoTextInDocx], None)
            end
          else ([StSidebarError UnsupportedFileType], Some [])
      end
  end.
Proof.
  unfold resume_input.
  destruct (upload_option w); [|reflexivity].
  destruct (uploaded_resume w) as [f|]; [|reflexivity].
  destruct (endswith (lower (name f)) dot_pdf).
  - rewrite extract_text_from_pdf_eq.
    destruct (fitz_pages (content f)) as [e|pages]; [reflexivity|].
    destruct (has_visible_text pages) eqn:Hvis; [|reflexivity].
    cbn [bind ret app].
    rewrite truthy_strip, blank_concat, <- has_visible_text_forallb, Hvis.
    reflexivity.
  - destruct (endswith (lower (name f)) dot_docx); [|reflexivity].
    rewrite extract_text_from_docx_eq.
    destruct (docx_paragraphs (content f)) as [e|paras]; [reflexivity|].
    destruct (has_visible_text paras) eqn:Hvis; [|reflexivity].
    cbn [bind ret app].
    rewrite truthy_strip, blank_concat_lines, <- has_visible_text_forallb, Hvis.
    reflexivity.
Qed.

(** X1.  A file that cannot be parsed stops the run on the error message
    carrying the exception: nothing else is shown, no model call is made. *)
Theorem parse_failure_stops_the_run (w : widgets) (f : upload) (e : exn) :
  upload_option w = UploadFile ->
  uploaded_resume w = Some f ->
  (endswith (lower (name f)) dot_pdf = true ->
   fitz_pages (content f) = inl e ->
   script w = ([StError (ErrorReadingPdf e)], None)) /\
  (endswith (lower (name f)) dot_docx = true ->
   docx_paragraphs (content f) = inl e ->
   script w = ([StError (ErrorReadingDocx e)], None)).
Proof.
  intros Hopt Hup. split; intros Hname Hparse; unfold script;
    rewrite resume_input_eq, Hopt, Hup.
  - now rewrite Hname, Hparse.
  - now rewrite (docx_is_not_pdf _ Hname), Hname, Hparse.
Qed.

(** X12.  Whenever an extractor returns, the success message and the expander
    are shown, and the expander holds the whole text returned, which is not
    blank: after an extraction the test of line 89 never fails. *)
Theorem extracted_text_is_shown_whole
    (w : widgets) (f : upload) (l : list event) (r : str) :
  upload_option w = UploadFile ->
  uploaded_resume w = Some f ->
  endswith (lower (name f)) dot_pdf = true \/
  endswith (lower (name f)) dot_docx = true ->
  resume_input w = (l, Some r) ->
  l = [StSuccess ResumeExtracted; StExpanderText r] /\
  blank r = false /\
  (outcome (extract_text_from_pdf f) = Some r \/
   outcome (extract_text_from_docx f) = Some r).
Proof.
  intros Hopt Hup Hname Hin.
  rewrite resume_input_eq, Hopt, Hup in Hin.
  destruct (endswith (lower (name f)) dot_pdf) eqn:Hpdf.
  - rewrite extract_text_from_pdf_eq.
    destruct (fitz_pages (content f)) as [e|pages]; [discriminate|].
    destruct (has_visible_text pages) eqn:Hvis; [|discriminate].
    injection Hin as <- <-. repeat split; auto.
    rewrite blank_concat, <- (negb_involutive (forallb blank pages)).
    now rewrite <- has_visible_text_forallb, Hvis.
  - destruct Hname as [Hname|Hname]; [discriminate|]. rewrite Hname in Hin.
    rewrite extract_text_from_docx_eq.
    destruct (docx_paragraphs (content f)) as [e|paras]; [discriminate|].
    destruct (has_visible_text paras) eqn:Hvis; [|discriminate].
    injection Hin as <- <-. repeat split; auto.
    rewrite blank_concat_lines, <- (negb_involutive (forallb blank paras)).
    now rewrite <- has_visible_text_forallb, Hvis.
Qed.

(** X4.  Take a run in which the uploader returned no file, or a file whose
    name ends with ".pdf" or ".docx" in any case, as its [type] argument
    admits.  The run either reaches the footer, which is then the last thing
    shown, or was stopped by an extractor on its own error message, before
    anything else was shown.  A run on pasted text is never stopped. *)
Theorem run_stops_only_in_extraction (w : widgets) :
  (forall f, upload_option w = UploadFile -> uploaded_resume w = Some f ->
             endswith (lower (name f)) dot_pdf = true \/
             endswith (lower (name f)) dot_docx = true) ->
  (outcome (script w) = Some tt /\
   exists l, trace (script w) = l ++ [StFooter]) \/
  (exists f m,
     upload_option w = UploadFile /\ uploaded_resume w = Some f /\
     script w = ([StError m], None) /\
     ((endswith (lower (name f)) dot_pdf = true /\
       (m = NoTextInPdf \/ exists e, m = ErrorReadingPdf e)) \/
      (endswith (lower (name f)) dot_docx = true /\
       (m = NoTextInDocx \/ exists e, m = ErrorReadingDocx e)))).
Proof.
  intros Hadmit.
  destruct (resume_input w) as [l [r|]] eqn:Hin.
  - left. rewrite (script_after_input w Hin). split; [reflexivity|].
    eexists. unfold trace, fst. now rewrite app_assoc.
  - right. unfold script. rewrite Hin. cbn [bind].
    rewrite resume_input_eq in Hin.
    destruct (upload_option w); [|discriminate].
    destruct (uploaded_resume w) as [f|]; [|discriminate].
    exists f. clear Hadmit.
    destruct (endswith (lower (name f)) dot_pdf).
    + destruct (fitz_pages (content f)) as [e|pages].
      * injection Hin as <-. exists (ErrorReadingPdf e). eauto 8.
      * destruct (has_visible_text pages); [discriminate|].
        injection Hin as <-. exists NoTextInPdf. eauto 8.
    + destruct (endswith (lower (name f)) dot_docx); [|discriminate].
      destruct (docx_paragraphs (content f)) as [e|paras].
      * injection Hin as <-. exists (ErrorReadingDocx e). eauto 8.
      * destruct (has_visible_text paras); [discriminate|].
        injection Hin as <-. exists NoTextInDocx. eauto 8.
Qed.

(** X3.  As long as the button is not pressed, a run shows what the resume
    input shows and then the footer: no model call, no score, no feedback and
    no request for input. *)
Theorem no_scoring_without_the_button (w : widgets) :
  button w = false ->
  trace (script w) =
    trace (resume_input w) ++
    (match outcome (resume_input w) with Some _ => [StFooter] | None => [] end) /\
  scoring_invoked (trace (script w)) = false /\
  encode_calls (trace (script w)) = [] /\
  ~ In (StWarning ProvideBoth) (trace (script w)).
Proof.
  intros Hb.
  pose proof (resume_input_quiet w) as Hq.
  assert (Hshape : trace (script w) =
            trace (resume_input w) ++
            (match outcome (resume_input w) with
             | Some _ => [StFooter] | None => [] end)).
  { destruct (resume_input w) as [l [r|]] eqn:Hin.
    - rewrite (script_after_input w Hin), Hb. reflexivity.
    - unfold script. rewrite Hin. cbn. now rewrite app_nil_r. }
  split; [exact Hshape|].
  rewrite Hshape. clear Hshape.
  set (tail := match outcome (resume_input w) with
               | Some _ => [StFooter] | None => [] end).
  assert (Htail : Forall (fun e => is_scoring_event e = false) tail /\
                  ~ In (StWarning ProvideBoth) tail).
  { unfold tail. destruct (outcome (resume_input w)); split;
      try (repeat constructor); simpl; intuition discriminate. }
  destruct Htail as [Ht1 Ht2].
  assert (Hnow : ~ In (StWarning ProvideBoth) (trace (resume_input w))).
  { rewrite resume_input_eq.
    destruct (upload_option w); [|simpl; tauto].
    destruct (uploaded_resume w) as [f|]; [|simpl; tauto].
    destruct (endswith (lower (name f)) dot_pdf).
    - destruct (fitz_pages (content f)) as [e|pages];
        [simpl; intuition discriminate|].
      destruct (has_visible_text pages); simpl; intuition discriminate.
    - destruct (endswith (lower (name f)) dot_docx);
        [|simpl; intuition discriminate].
      destruct (docx_paragraphs (content f)) as [e|paras];
        [simpl; intuition discriminate|].
      destruct (has_visible_text paras); simpl; intuition discriminate. }
  assert (Hall : Forall (fun e => is_scoring_event e = false)
                   (trace (resume_input w) ++ tail))
    by (apply Forall_app; now split).
  repeat split.
  - rewrite <- (app_nil_r (trace (resume_input w) ++ tail)).
    now rewrite (quiet_scoring_invoked [] Hall).
  - clear - Hall. induction Hall as [|e l He _ IH]; [reflexivity|].
    destruct e; try exact IH; discriminate.
  - intros Hin. apply in_app_or in Hin. tauto.
Qed.

End ResumeInput.

(** ** More on the scoring pipeline *)

Lemma feedback_great_iff (s : Q) : feedback s = StSuccess GreatMatch <-> 75 <= s.
Proof.
  unfold feedback. rewrite <- Qle_bool_iff.
  destruct (Qle_bool 75 s); [tauto|].
  destruct (Qle_bool 50 s); split; discriminate.
Qed.

Lemma feedback_low_iff (s : Q) : feedback s = StError LowMatch <-> s < 50.
Proof.
  unfold feedback.
  destruct (Qle_bool 75 s) eqn:H75.
  - apply Qle_bool_iff in H75. split; [discriminate | lra].
  - destruct (Qle_bool 50 s) eqn:H50.
    + apply Qle_bool_iff in H50. split; [discriminate | lra].
    + split; [|reflexivity]. intros _.
      apply Qnot_le_lt. intros H. apply Qle_bool_iff in H. congruence.
Qed.

Lemma encode_calls_app (l1 l2 : list event) :
  encode_calls (l1 ++ l2) = encode_calls l1 ++ encode_calls l2.
Proof.
  induction l1 as [|e l1 IH]; simpl; [reflexivity|].
  destruct e; simpl; now rewrite ?IH.
Qed.

Lemma quiet_encode_calls (l : list event) :
  Forall (fun e => is_scoring_event e = false) l -> encode_calls l = [].
Proof.
  induction 1 as [|e l He _ IH]; [reflexivity|].
  destruct e; try exact IH; discriminate.
Qed.

Section ScoringMore.
Context {E : Externals}.

Lemma calculate_ats_score_success (r j : str) (a b : tensor) (c : Q) :
  model_encode r = inr a -> model_encode j = inr b ->
  pytorch_cos_sim a b = inr c ->
  calculate_ats_score r j =
  ([ModelEncode r; ModelEncode j], Some (py_round (c * 100) 2)).
Proof.
  intros Ha Hb Hc. unfold calculate_ats_score. now rewrite Ha, Hb, Hc.
Qed.

(** The events of [calculate_ats_score]: the model calls, then at most one
    error message. *)
Lemma calculate_ats_score_trace (r j : str) :
  exists errors,
    trace (calculate_ats_score r j) =
      map ModelEncode (match model_encode r with
                       | inl _ => [r] | inr _ => [r; j] end) ++
      map (fun e => StError (ErrorCalculating e)) errors.
Proof.
  unfold calculate_ats_score, score_failed.
  destruct (model_encode r) as [e|a]; [now exists [e]|].
  destruct (model_encode j) as [e|b]; [now exists [e]|].
  destruct (pytorch_cos_sim a b) as [e|c]; [now exists [e] | now exists []].
Qed.

Lemma displayed_score_calculate (r j : str) (t : list event) :
  displayed_score (trace (calculate_ats_score r j) ++ t) = displayed_score t.
Proof.
  destruct (calculate_ats_score_trace r j) as [errors ->].
  rewrite <- app_assoc.
  destruct (model_encode r); simpl; induction errors; simpl; auto.
Qed.

Lemma encode_calls_calculate (r j : str) :
  encode_calls (trace (calculate_ats_score r j)) =
  match model_encode r with inl _ => [r] | inr _ => [r; j] end.
Proof.
  destruct (calculate_ats_score_trace r j) as [errors ->].
  rewrite encode_calls_app.
  assert (He : encode_calls (map (fun e => StError (ErrorCalculating e)) errors) = [])
    by (induction errors; simpl; auto).
  rewrite He, app_nil_r.
  destruct (model_encode r); reflexivity.
Qed.

(** The trace of the handler on two texts that are not blank. *)
Lemma check_ats_score_trace (r j : str) :
  blank r = false -> blank j = false ->
  exists s,
    outcome (calculate_ats_score r j) = Some s /\
    trace (check_ats_score true r j) =
      StSpinner :: trace (calculate_ats_score r j) ++
      [StSubheader s; feedback s; StCaption].
Proof.
  intros Hr Hj.
  destruct (calculate_ats_score_total r j) as [l [s Hs]].
  exists s. rewrite Hs. split; [reflexivity|].
  rewrite (@check_ats_score_accepted _ r j l s); [reflexivity| |exact Hs].
  now rewrite !truthy_strip, Hr, Hj.
Qed.

(** X7.  A failure of the similarity computation, after both texts were
    encoded, is handled like a failure of the model: the error is shown, the
    score 0 is displayed with the feedback of the Weak tier, and the run
    reaches the footer. *)
Theorem similarity_failure_scores_zero
    (w : widgets) (l : list event) (r : str) (a b : tensor) (e : exn) :
  button w = true ->
  resume_input w = (l, Some r) ->
  let r' := slice_to MAX_CHARS r in
  let j' := slice_to MAX_CHARS (pasted_job_desc w) in
  truthy (strip r') && truthy (strip j') = true ->
  model_encode r' = inr a -> model_encode j' = inr b ->
  pytorch_cos_sim a b = inl e ->
  script w =
    (l ++ [StSpinner; ModelEncode r'; ModelEncode j';
           StError (ErrorCalculating e);
           StSubheader 0; StError LowMatch; StCaption; StFooter], Some tt).
Proof.
  intros Hb Hin r' j' Hok Ha Hbb Hc.
  assert (Hs : calculate_ats_score r' j' =
               ([ModelEncode r'; ModelEncode j'; StError (ErrorCalculating e)],
                Some 0)).
  { unfold calculate_ats_score. now rewrite Ha, Hbb, Hc. }
  rewrite (script_after_input w Hin), Hb. fold r' j'.
  now rewrite (check_ats_score_accepted r' j' Hok Hs).
Qed.

(** X14.  An error message of [calculate_ats_score] carries the exception
    that one of its three calls raised, and the score returned with it is 0. *)
Theorem reported_error_is_the_one_raised (r j : str) (e : exn) :
  In (StError (ErrorCalculating e)) (trace (calculate_ats_score r j)) ->
  outcome (calculate_ats_score r j) = Some 0 /\
  (model_encode r = inl e \/
   exists a, model_encode r = inr a /\
     (model_encode j = inl e \/
      exists b, model_encode j = inr b /\ pytorch_cos_sim a b = inl e)).
Proof.
  unfold calculate_ats_score, score_failed.
  destruct (model_encode r) as [e1|a].
  - simpl. intros [H|[H|[]]]; [discriminate|]. injection H as ->. auto.
  - destruct (model_encode j) as [e2|b].
    + simpl. intros [H|[H|[H|[]]]]; try discriminate.
      injection H as ->. split; [reflexivity|]. right. exists a. auto.
    + destruct (pytorch_cos_sim a b) as [e3|c] eqn:Hc.
      * simpl. intros [H|[H|[H|[]]]]; try discriminate.
        injection H as ->. split; [reflexivity|].
        right. exists a. split; [reflexivity|]. right. exists b. auto.
      * simpl. intros [H|[H|[]]]; discriminate.
Qed.

(** X9.  A higher similarity never gives a lower score, nor a lower tier. *)
Theorem higher_similarity_never_lowers_score
    (r1 j1 r2 j2 : str) (a1 b1 a2 b2 : tensor) (c1 c2 : Q) :
  model_encode r1 = inr a1 -> model_encode j1 = inr b1 ->
  pytorch_cos_sim a1 b1 = inr c1 ->
  model_encode r2 = inr a2 -> model_encode j2 = inr b2 ->
  pytorch_cos_sim a2 b2 = inr c2 ->
  c1 <= c2 ->
  exists s1 s2,
    outcome (calculate_ats_score r1 j1) = Some s1 /\
    outcome (calculate_ats_score r2 j2) = Some s2 /\
    s1 <= s2 /\
    (feedback s1 = StSuccess GreatMatch -> feedback s2 = StSuccess GreatMatch) /\
    (feedback s2 = StError LowMatch -> feedback s1 = StError LowMatch).
Proof.
  intros Ha1 Hb1 Hc1 Ha2 Hb2 Hc2 Hle.
  exists (py_round (c1 * 100) 2), (py_round (c2 * 100) 2).
  rewrite (calculate_ats_score_success r1 j1 Ha1 Hb1 Hc1).
  rewrite (calculate_ats_score_success r2 j2 Ha2 Hb2 Hc2).
  assert (Hs : py_round (c1 * 100) 2 <= py_round (c2 * 100) 2)
    by (apply py_round_2_mono; lra).
  repeat split; try exact Hs.
  - rewrite !feedback_great_iff. lra.
  - rewrite !feedback_low_iff. lra.
Qed.

End ScoringMore.

(** ** More on whole runs *)

Lemma str_eqb_refl (a : str) : str_eqb a a = true.
Proof. induction a; simpl; [reflexivity | now rewrite N.eqb_refl]. Qed.

Lemma endswith_app (pre suffix : str) : endswith (pre ++ suffix) suffix = true.
Proof.
  unfold endswith. rewrite length_app.
  replace (length pre + length suffix - length suffix)%nat with (length pre) by lia.
  rewrite skipn_app, skipn_all, Nat.sub_diag. simpl.
  rewrite str_eqb_refl, andb_true_r. apply Nat.leb_le. lia.
Qed.

Lemma lower_app (a b : str) : lower (a ++ b) = lower a ++ lower b.
Proof. apply map_app. Qed.

Section WholeRunMore.
Context {E : Externals}.

(** X5.  A run calls the model at most twice, and only from the handler: on
    the resume text cut to 2000 characters, then, if that was encoded, on the
    job description cut to 2000 characters.  Neither text is blank nor longer
    than 2000 characters. *)
Theorem model_calls_of_a_run (w : widgets) :
  encode_calls (trace (script w)) = [] \/
  exists l r,
    button w = true /\ resume_input w = (l, Some r) /\
    let r' := firstn 2000 r in
    let j' := firstn 2000 (pasted_job_desc w) in
    blank r' = false /\ blank j' = false /\
    (length r' <= 2000)%nat /\ (length j' <= 2000)%nat /\
    encode_calls (trace (script w)) =
      match model_encode r' with inl _ => [r'] | inr _ => [r'; j'] end.
Proof.
  destruct (resume_input w) as [l [r|]] eqn:Hin.
  - pose proof (resume_input_log_quiet w Hin) as Hq.
    set (r' := firstn 2000 r). set (j' := firstn 2000 (pasted_job_desc w)).
    assert (Hcalls : encode_calls (trace (script w)) =
                     encode_calls (trace (check_ats_score (button w) r' j'))).
    { rewrite (script_after_input w Hin). unfold trace at 1, fst.
      rewrite !encode_calls_app, (quiet_encode_calls Hq). cbn [app encode_calls].
      now rewrite app_nil_r. }
    rewrite Hcalls.
    destruct (button w) eqn:Hb; [|now left].
    destruct (blank r') eqn:Hr.
    { left. rewrite check_ats_score_blank by now left. reflexivity. }
    destruct (blank j') eqn:Hj.
    { left. rewrite check_ats_score_blank by now right. reflexivity. }
    right. exists l, r. fold r' j'. cbv zeta.
    split; [reflexivity|]. split; [reflexivity|].
    split; [exact Hr|]. split; [exact Hj|].
    split; [apply firstn_le_length|]. split; [apply firstn_le_length|].
    destruct (check_ats_score_trace r' j' Hr Hj) as [s [_ ->]].
    cbn [encode_calls]. rewrite encode_calls_app, encode_calls_calculate.
    cbn [encode_calls]. unfold feedback.
    destruct (Qle_bool 75 s); [|destruct (Qle_bool 50 s)]; apply app_nil_r.
  - left. unfold script. rewrite Hin. cbn [bind trace fst].
    apply quiet_encode_calls. exact (resume_input_log_quiet w Hin).
Qed.

(** X6.  A score is displayed exactly when the button is pressed, the resume
    text was obtained and neither text is blank once cut to 2000 characters;
    it is then the score [calculate_ats_score] returns on the two cut texts. *)
Theorem displayed_score_of_a_run (w : widgets) :
  displayed_score (trace (script w)) =
  match outcome (resume_input w) with
  | Some r =>
      let r' := firstn 2000 r in
      let j' := firstn 2000 (pasted_job_desc w) in
      if button w && negb (blank r') && negb (blank j')
      then outcome (calculate_ats_score r' j')
      else None
  | None => None
  end.
Proof.
  destruct (resume_input w) as [l [r|]] eqn:Hin; cbn [outcome snd].
  - pose proof (resume_input_log_quiet w Hin) as Hq.
    rewrite (script_after_input w Hin). unfold trace at 1, fst.
    rewrite (quiet_displayed_score _ Hq).
    unfold slice_to, MAX_CHARS. cbv zeta.
    set (r' := firstn 2000 r). set (j' := firstn 2000 (pasted_job_desc w)).
    destruct (button w); [|reflexivity].
    destruct (blank r') eqn:Hr.
    { rewrite check_ats_score_blank by now left. reflexivity. }
    destruct (blank j') eqn:Hj.
    { rewrite check_ats_score_blank by now right. reflexivity. }
    destruct (check_ats_score_trace r' j' Hr Hj) as [s [Hs ->]].
    cbn [app displayed_score andb negb].
    now rewrite <- app_assoc, displayed_score_calculate.
  - unfold script. rewrite Hin. cbn [bind trace fst].
    rewrite <- (app_nil_r l).
    now rewrite (quiet_displayed_score [] (resume_input_log_quiet w Hin)).
Qed.

(** X11.  A document is announced as extracted successfully, and shown, as
    soon as it has visible text anywhere; if its first 2000 characters are
    whitespace, the button nevertheless asks for both inputs. *)
Theorem extracted_yet_missing (w : widgets) (f : upload) (parts : list str) :
  upload_option w = UploadFile ->
  uploaded_resume w = Some f ->
  button w = true ->
  has_visible_text parts = true ->
  (endswith (lower (name f)) dot_pdf = true ->
   fitz_pages (content f) = inr parts ->
   blank (firstn 2000 (concat parts)) = true ->
   script w =
     ([StSuccess ResumeExtracted; StExpanderText (concat parts);
       StWarning ProvideBoth; StFooter], Some tt)) /\
  (endswith (lower (name f)) dot_docx = true ->
   docx_paragraphs (content f) = inr parts ->
   blank (firstn 2000 (concat (map (fun para => para ++ newline) parts))) = true ->
   script w =
     ([StSuccess ResumeExtracted;
       StExpanderText (concat (map (fun para => para ++ newline) parts));
       StWarning ProvideBoth; StFooter], Some tt)).
Proof.
  intros Hopt Hup Hb Hvis. split; intros Hname Hparse Hblank.
  - assert (Hin : resume_input w = extracted (concat parts))
      by now rewrite resume_input_eq, Hopt, Hup, Hname, Hparse, Hvis.
    rewrite (script_after_input w Hin), Hb.
    rewrite check_ats_score_blank; [reflexivity | now left].
  - assert (Hin : resume_input w =
                  extracted (concat (map (fun para => para ++ newline) parts)))
      by now rewrite resume_input_eq, Hopt, Hup, (docx_is_not_pdf _ Hname),
                     Hname, Hparse, Hvis.
    rewrite (script_after_input w Hin), Hb.
    rewrite check_ats_score_blank; [reflexivity | now left].
Qed.

(** X13.  The extension of the file name is matched whatever the case of its
    letters: a name ending with ".pdf" in any case goes to the PDF extractor,
    one ending with ".docx" in any case to the DOCX extractor, and what is
    shown next is the text that extractor returned. *)
Theorem extension_case_is_ignored (w : widgets) (f : upload) (stem ext : str) :
  upload_option w = UploadFile ->
  uploaded_resume w = Some f ->
  name f = stem ++ ext ->
  (lower ext = dot_pdf ->
   resume_input w = (text <- extract_text_from_pdf f ;; extracted text)) /\
  (lower ext = dot_docx ->
   resume_input w = (text <- extract_text_from_docx f ;; extracted text)).
Proof.
  intros Hopt Hup Hname. split; intros Hext.
  - assert (Hpdf : endswith (lower (name f)) dot_pdf = true)
      by (rewrite Hname, lower_app, Hext; apply endswith_app).
    rewrite resume_input_eq, Hopt, Hup, Hpdf, extract_text_from_pdf_eq.
    destruct (fitz_pages (content f)) as [e|pages]; [reflexivity|].
    destruct (has_visible_text pages); reflexivity.
  - assert (Hdocx : endswith (lower (name f)) dot_docx = true)
      by (rewrite Hname, lower_app, Hext; apply endswith_app).
    rewrite resume_input_eq, Hopt, Hup, (docx_is_not_pdf _ Hdocx), Hdocx,
      extract_text_from_docx_eq.
    destruct (docx_paragraphs (content f)) as [e|paras]; [reflexivity|].
    destruct (has_visible_text paras); reflexivity.
Qed.

End WholeRunMore.

(** * Concrete runs

    The script on the small instance [toy] of the libraries.  The letter "a"
    (97) is embedded as -1 and "b" (98) as 1. *)

Local Open Scope N_scope.

(** C1 fails as stated: two texts that are not blank, whose embeddings point
    in opposite directions, score -100, which is below 0. *)
Lemma score_can_be_negative :
  truthy (strip [97]) = true /\ truthy (strip [98]) = true /\
  calculate_ats_score (E := toy) [97] [98] =
    ([ModelEncode [97]; ModelEncode [98]], Some (-100)%Q) /\
  ~ (0 <= -100 <= 100)%Q.
Proof.
  repeat split. intros [H _]. now apply H.
Qed.

Lemma score_between_minus_100_and_100_witness :
  exists s,
    outcome (calculate_ats_score (E := toy) [97] [98]) = Some s /\
    (-100 <= s <= 100)%Q /\
    ((forall a b c, toy_encode [97] = inr a -> toy_encode [98] = inr b ->
                    toy_cos_sim a b = inr c -> (0 <= c)%Q) ->
     (0 <= s)%Q) /\
    (forall e, toy_encode [97] = inl e -> s = 0%Q) /\
    (forall a e, toy_encode [97] = inr a -> toy_encode [98] = inl e -> s = 0%Q) /\
    (forall a b e, toy_encode [97] = inr a -> toy_encode [98] = inr b ->
                   toy_cos_sim a b = inl e -> s = 0%Q).
Proof.
  apply (score_between_minus_100_and_100 (E := toy) [97] [98]).
  intros a b c Ha Hb Hc. simpl in Ha, Hb.
  injection Ha as <-. injection Hb as <-. injection Hc as <-.
  split; discriminate.
Defined.

Lemma feedback_thresholds_witness :
  feedback 75 = StSuccess GreatMatch /\
  feedback (7499 # 100) = StWarning AverageMatch /\
  feedback 50 = StWarning AverageMatch /\
  feedback (4999 # 100) = StError LowMatch.
Proof.
  split; [|split; [|split]].
  - apply (proj1 (feedback_thresholds (E := toy) 75)). discriminate.
  - apply (proj1 (proj2 (feedback_thresholds (E := toy) (7499 # 100))));
      [discriminate | reflexivity].
  - apply (proj1 (proj2 (feedback_thresholds (E := toy) 50)));
      [discriminate | reflexivity].
  - apply (proj1 (proj2 (proj2 (feedback_thresholds (E := toy) (4999 # 100))))).
    reflexivity.
Defined.

(** Two pasted resumes of 2001 and 2002 characters with the same first 2000. *)
Lemma score_depends_on_first_2000_chars_witness :
  let w1 := paste (repeat 98 2000 ++ [97]) [98] true in
  let w2 := paste (repeat 98 2000 ++ [0; 0]) [98] true in
  let rest :=
    trace (check_ats_score (E := toy) true (firstn 2000 (repeat 98 2000 ++ [97]))
             (firstn 2000 [98])) ++ [StFooter] in
  script (E := toy) w1 = ([] ++ rest, Some tt) /\
  script (E := toy) w2 = ([] ++ rest, Some tt) /\
  displayed_score (trace (script (E := toy) w1)) =
  displayed_score (trace (script (E := toy) w2)).
Proof.
  intros w1 w2.
  apply (score_depends_on_first_2000_chars (E := toy) w1 w2
           (l1 := []) (l2 := []) (r1 := repeat 98 2000 ++ [97])
           (r2 := repeat 98 2000 ++ [0; 0])).
  - reflexivity.
  - reflexivity.
  - reflexivity.
  - vm_compute. reflexivity.
  - vm_compute. reflexivity.
Defined.

(** C4 fails as stated: a text that is not blank and that the model cannot
    encode scores 0 against itself, through the [except] branch. *)
Lemma identical_texts_can_score_zero :
  truthy (strip [0; 97]) = true /\
  calculate_ats_score (E := toy) [0; 97] [0; 97] =
    ([ModelEncode [0; 97]; StError (ErrorCalculating "cannot encode NUL"%string)],
     Some 0%Q) /\
  ~ (0 == 100)%Q.
Proof.
  repeat split. discriminate.
Qed.

Lemma identical_texts_score_100_witness :
  calculate_ats_score (E := toy) [98; 97] [98; 97] =
  ([ModelEncode [98; 97]; ModelEncode [98; 97]], Some 100%Q).
Proof.
  apply (identical_texts_score_100 (E := toy) [98; 97] (v := 1%Z) (c := 1%Q)).
  - reflexivity.
  - reflexivity.
  - vm_compute. discriminate.
Defined.

Lemma encoding_failure_scores_zero_witness :
  script (E := toy) (paste [0; 97] [98] true) =
  ([] ++ [StSpinner; ModelEncode [0; 97];
          StError (ErrorCalculating "cannot encode NUL"%string);
          StSubheader 0%Q; StError LowMatch; StCaption; StFooter], Some tt) /\
  script (E := toy) (paste [97] [0] true) =
  ([] ++ [StSpinner; ModelEncode [97]; ModelEncode [0];
          StError (ErrorCalculating "cannot encode NUL"%string);
          StSubheader 0%Q; StError LowMatch; StCaption; StFooter], Some tt).
Proof.
  split.
  - apply (proj1 (encoding_failure_scores_zero (E := toy) (paste [0; 97] [98] true)
                    (l := []) (r := [0; 97]) "cannot encode NUL"%string
                    eq_refl eq_refl eq_refl)).
    reflexivity.
  - apply (proj2 (encoding_failure_scores_zero (E := toy) (paste [97] [0] true)
                    (l := []) (r := [97]) "cannot encode NUL"%string
                    eq_refl eq_refl eq_refl) (-1)%Z).
    + reflexivity.
    + reflexivity.
Defined.

(** C6 fails as stated for a DOCX: one paragraph "a" is extracted as "a"
    followed by a newline, which is not the paragraphs separated by
    newlines. *)
Lemma docx_text_ends_with_newline :
  let f := {| name := cv_docx; content := ["a"%byte] |} in
  docx_paragraphs (Externals := toy) (content f) = inr [[97]] /\
  has_visible_text [[97]] = true /\
  extract_text_from_docx (E := toy) f = ([], Some [97; 10]) /\
  join_with newline [[97]] = [97] /\
  outcome (extract_text_from_docx (E := toy) f) <> Some (join_with newline [[97]]).
Proof.
  repeat split. discriminate.
Qed.

Lemma extraction_in_document_order_witness :
  let f := {| name := cv_pdf; content := ["a"%byte; " "%byte; "b"%byte] |} in
  extract_text_from_pdf (E := toy) f = ([], Some [97; 32; 98]) /\
  extract_text_from_docx (E := toy) f = ([], Some [97; 10; 32; 10; 98; 10]).
Proof.
  intros f.
  pose proof (extraction_in_document_order (E := toy) f
                [[97]; [32]; [98]] eq_refl) as [Hpdf Hdocx].
  split.
  - exact (Hpdf eq_refl).
  - exact (Hdocx eq_refl).
Defined.

Lemma empty_document_stops_the_run_witness :
  script (E := toy)
    (upload_file {| name := cv_pdf; content := [" "%byte; "010"%byte] |} [98] true) =
  ([StError NoTextInPdf], None) /\
  script (E := toy)
    (upload_file {| name := cv_docx; content := [" "%byte] |} [98] true) =
  ([StError NoTextInDocx], None).
Proof.
  split.
  - apply (proj1 (empty_document_stops_the_run (E := toy)
             (upload_file {| name := cv_pdf; content := [" "%byte; "010"%byte] |}
                [98] true)
             [[32]; [10]] eq_refl eq_refl eq_refl) eq_refl eq_refl).
  - apply (proj2 (empty_document_stops_the_run (E := toy)
             (upload_file {| name := cv_docx; content := [" "%byte] |} [98] true)
             [[32]] eq_refl eq_refl eq_refl) eq_refl eq_refl).
Defined.

Lemma blank_input_is_prompted_witness :
  script (E := toy) (paste [32; 10] [98] true) =
    ([] ++ [StWarning ProvideBoth; StFooter], Some tt) /\
  scoring_invoked (trace (script (E := toy) (paste [32; 10] [98] true))) = false.
Proof.
  apply (blank_input_is_prompted (E := toy) (paste [32; 10] [98] true)
           (l := []) (r := [32; 10]) eq_refl eq_refl).
  left. reflexivity.
Defined.

Lemma validation_sees_truncated_text_witness :
  script (E := toy) (paste (spaces 2000 ++ [97]) [98] true) =
    ([StWarning ProvideBoth; StFooter], Some tt) /\
  scoring_invoked
    (trace (script (E := toy) (paste (spaces 2000 ++ [97]) [98] true))) = false.
Proof.
  apply (proj1 (validation_sees_truncated_text (E := toy))).
  left. vm_compute. reflexivity.
Defined.

Lemma extracted_text_not_blank_witness :
  strip [97; 32] <> [] /\ exists c, In c [97; 32] /\ isspace c = false.
Proof.
  apply (extracted_text_not_blank (E := toy)
           {| name := cv_pdf; content := ["a"%byte; " "%byte] |}).
  left. reflexivity.
Defined.

(** ** Concrete runs for the further properties *)

Lemma parse_failure_stops_the_run_witness :
  script (E := toy) (upload_file {| name := cv_pdf; content := [] |} [98] true) =
    ([StError (ErrorReadingPdf "empty stream"%string)], None) /\
  script (E := toy) (upload_file {| name := cv_docx; content := [] |} [98] true) =
    ([StError (ErrorReadingDocx "empty stream"%string)], None).
Proof.
  split.
  - apply (proj1 (parse_failure_stops_the_run (E := toy)
             (upload_file {| name := cv_pdf; content := [] |} [98] true)
             "empty stream"%string eq_refl eq_refl)); reflexivity.
  - apply (proj2 (parse_failure_stops_the_run (E := toy)
             (upload_file {| name := cv_docx; content := [] |} [98] true)
             "empty stream"%string eq_refl eq_refl)); reflexivity.
Defined.

Lemma extracted_text_is_shown_whole_witness :
  [StSuccess ResumeExtracted; StExpanderText [97; 32]] =
  [StSuccess ResumeExtracted; StExpanderText [97; 32]] /\
  blank [97; 32] = false /\
  (outcome (extract_text_from_pdf (E := toy)
              {| name := cv_pdf; content := ["a"%byte; " "%byte] |}) = Some [97; 32] \/
   outcome (extract_text_from_docx (E := toy)
              {| name := cv_pdf; content := ["a"%byte; " "%byte] |}) = Some [97; 32]).
Proof.
  apply (extracted_text_is_shown_whole (E := toy)
           (upload_file {| name := cv_pdf; content := ["a"%byte; " "%byte] |}
              [98] false)
           (f := {| name := cv_pdf; content := ["a"%byte; " "%byte] |})
           eq_refl eq_refl).
  - left. reflexivity.
  - reflexivity.
Defined.

Lemma no_scoring_without_the_button_witness :
  let w := paste [97] [98] false in
  trace (script (E := toy) w) =
    trace (resume_input (E := toy) w) ++
    (match outcome (resume_input (E := toy) w) with
     | Some _ => [StFooter] | None => [] end) /\
  scoring_invoked (trace (script (E := toy) w)) = false /\
  encode_calls (trace (script (E := toy) w)) = [] /\
  ~ In (StWarning ProvideBoth) (trace (script (E := toy) w)).
Proof.
  intros w. apply (no_scoring_without_the_button (E := toy) w). reflexivity.
Defined.

Lemma similarity_failure_scores_zero_witness :
  script (E := toy_ragged) (paste [97; 97] [98] true) =
  ([] ++ [StSpinner; ModelEncode [97; 97]; ModelEncode [98];
          StError (ErrorCalculating "shape mismatch"%string);
          StSubheader 0%Q; StError LowMatch; StCaption; StFooter], Some tt).
Proof.
  apply (similarity_failure_scores_zero (E := toy_ragged) (paste [97; 97] [98] true)
           (l := []) (r := [97; 97]) (a := [97%Z; 97%Z]) (b := [98%Z])
           (e := "shape mismatch"%string)); reflexivity.
Defined.

Lemma reported_error_is_the_one_raised_witness :
  outcome (calculate_ats_score (E := toy) [97] [0]) = Some 0%Q /\
  (toy_encode [97] = inl "cannot encode NUL"%string \/
   exists a, toy_encode [97] = inr a /\
     (toy_encode [0] = inl "cannot encode NUL"%string \/
      exists b, toy_encode [0] = inr b /\
                toy_cos_sim a b = inl "cannot encode NUL"%string)).
Proof.
  apply (reported_error_is_the_one_raised (E := toy) [97] [0] "cannot encode NUL"%string).
  right. right. left. reflexivity.
Defined.

Lemma higher_similarity_never_lowers_score_witness :
  exists s1 s2,
    outcome (calculate_ats_score (E := toy) [97] [98]) = Some s1 /\
    outcome (calculate_ats_score (E := toy) [98] [98]) = Some s2 /\
    (s1 <= s2)%Q /\
    (feedback s1 = StSuccess GreatMatch -> feedback s2 = StSuccess GreatMatch) /\
    (feedback s2 = StError LowMatch -> feedback s1 = StError LowMatch).
Proof.
  apply (higher_similarity_never_lowers_score (E := toy) [97] [98] [98] [98]
           (a1 := (-1)%Z) (b1 := 1%Z) (a2 := 1%Z) (b2 := 1%Z)
           (c1 := (-1)%Q) (c2 := 1%Q)); try reflexivity.
  discriminate.
Defined.

Lemma extracted_yet_missing_witness :
  let f := {| name := cv_pdf; content := blank_then_a |} in
  let parts := map (fun b => [Byte.to_N b]) blank_then_a in
  script (E := toy) (upload_file f [98] true) =
  ([StSuccess ResumeExtracted; StExpanderText (concat parts);
    StWarning ProvideBoth; StFooter], Some tt).
Proof.
  intros f parts.
  apply (proj1 (extracted_yet_missing (E := toy) (upload_file f [98] true)
                  (f := f) parts eq_refl eq_refl eq_refl eq_refl)).
  - reflexivity.
  - reflexivity.
  - vm_compute. reflexivity.
Defined.

Lemma extension_case_is_ignored_witness :
  let f := {| name := cv_pdf; content := ["a"%byte] |} in
  resume_input (E := toy) (upload_file f [98] true) =
  (text <- extract_text_from_pdf (E := toy) f ;; extracted text).
Proof.
  intros f.
  apply (proj1 (extension_case_is_ignored (E := toy) (upload_file f [98] true)
                  (f := f) [99; 118] [46; 80; 68; 70] eq_refl eq_refl eq_refl)).
  reflexivity.
Defined.

Lemma run_stops_only_in_extraction_witness :
  let w := upload_file {| name := cv_pdf; content := [" "%byte] |} [98] true in
  (outcome (script (E := toy) w) = Some tt /\
   exists l, trace (script (E := toy) w) = l ++ [StFooter]) \/
  (exists f m,
     upload_option w = UploadFile /\ uploaded_resume w = Some f /\
     script (E := toy) w = ([StError m], None) /\
     ((endswith (lower (name f)) dot_pdf = true /\
       (m = NoTextInPdf \/ exists e, m = ErrorReadingPdf e)) \/
      (endswith (lower (name f)) dot_docx = true /\
       (m = NoTextInDocx \/ exists e, m = ErrorReadingDocx e)))).
Proof.
  intros w. apply (run_stops_only_in_extraction (E := toy) w).
  intros f _ Hf. injection Hf as <-. left. reflexivity.
Defined.
